(** * ffda-oob-state-collector: the datagram handler and the expiry sweep

    A shallow embedding of [src/ffda_oob_state_collector/__main__.py]:
    the wire decoder inside [StateReporterListener.datagramReceived], the
    four labelled Prometheus gauges owned by [StateCollectorMetrics], and
    [StateCollectorMetrics.cleanup_expired]. *)

From Stdlib Require Import ZArith Strings.Byte.
From stdpp Require Import gmap strings list fin_maps pretty.

Local Open Scope Z_scope.

(** ** Python [bytes] *)

Module Bytes.

Abbreviation bytes := (list byte).

Definition byte_val (b : byte) : Z := Z.of_N (Byte.to_N b).

(** [data[i:j]] for literal bounds [0 <= i <= j]: slicing never raises,
    it returns what is there. *)
Definition slice (i j : nat) (data : bytes) : bytes :=
  take (j - i)%nat (drop i data).

Definition from_bytes_unsigned (b : bytes) : Z :=
  foldl (fun acc x => acc * 256 + byte_val x) 0 b.

(** [int.from_bytes(b, 'big', signed=signed)].  The empty string decodes
    to 0 for both signs; a signed value is the two's complement reading
    of [8 * len(b)] bits. *)
Definition int_from_bytes (b : bytes) (signed : bool) : Z :=
  let u := from_bytes_unsigned b in
  let w := 8 * Z.of_nat (length b) in
  if signed && (0 <? w) && Z.testbit u (w - 1) then u - 2 ^ w else u.

End Bytes.
Import Bytes.

(** ** Floats

    [Gauge.set] stores [float(value)], [time.time()] returns a float and
    the sweep compares and subtracts floats.  The development is
    parametric in the float type and these three operations; nothing is
    assumed about them. *)

Class PyFloat (V : Type) := {
  float : Z -> V;            (* float(n) for a Python int n *)
  float_lt : V -> V -> bool; (* x < y *)
  float_sub : V -> V -> V    (* x - y *)
}.

(** Integral seconds: an instance to run the model on. *)
#[global] Instance Z_seconds : PyFloat Z :=
  {| float := fun z => z; float_lt := Z.ltb; float_sub := Z.sub |}.

Section Collector.

Context {V : Type} `{PyFloat V}.

(** ** prometheus_client.Gauge with label names

    [_metrics] is the dict from label-value tuples to children; a child
    is represented by the float it holds ([_value.get()]).  With
    [metric_labels = ['ip', 'host']] a label-value tuple is a pair of
    strings: [labels] and [remove] apply [str] to each label value. *)

Abbreviation labelvalues := (string * string)%type.

Record Gauge := mkGauge {
  _name : string;
  _documentation : string;
  _labelnames : list string;
  _metrics : gmap labelvalues V
}.

(** [tuple(str(l) for l in (address[0], host_id))]: the address is a
    string already, the host identifier is an int printed in decimal. *)
Definition labels (ip : string) (host_id : Z) : labelvalues :=
  (ip, pretty host_id).

(** [g.labels(ip, host).set(value)], with [k] the label tuple: the child
    for [k] is created when absent and its value overwritten. *)
Definition set (g : Gauge) (k : labelvalues) (value : V) : Gauge :=
  mkGauge (_name g) (_documentation g) (_labelnames g)
          (<[k := value]> (_metrics g)).

(** [g.remove] applied to the tuple [k]: the child for [k] is dropped
    from [_metrics].  (Releases of the library differ on a tuple that has
    no child: nothing happens, or [KeyError]; see
    [cleanup_expired_finds_children] for why the sweep never meets that
    case.) *)
Definition remove (g : Gauge) (k : labelvalues) : Gauge :=
  mkGauge (_name g) (_documentation g) (_labelnames g)
          (delete k (_metrics g)).

(** ** StateCollectorMetrics *)

Record StateCollectorMetrics := mkMetrics {
  soc : Gauge;
  charging : Gauge;
  temperature : Gauge;
  last_contact : Gauge
}.

Definition metric_labels : list string := ["ip"; "host"]%string.

(** [StateCollectorMetrics.__init__] *)
Definition init : StateCollectorMetrics :=
  {| soc := mkGauge "soc" "State of charge" metric_labels ∅;
     charging := mkGauge "charging" "Charging status" metric_labels ∅;
     temperature :=
       mkGauge "temperature" "Temperature in celsius" metric_labels ∅;
     last_contact := mkGauge "last_contact" "Last contact" metric_labels ∅ |}.

(** The first loop of [cleanup_expired]: the label tuples of
    [last_contact] whose value is below [max_last_contact].  Python
    walks the dict in insertion order, [map_to_list] in key order; the
    second loop does not depend on the order. *)
Definition to_remove (self : StateCollectorMetrics) (max_last_contact : V)
  : list labelvalues :=
  (filter (fun kv => float_lt kv.2 max_last_contact = true)
          (map_to_list (_metrics (last_contact self)))).*1.

(** The body of the second loop. *)
Definition remove_labels (self : StateCollectorMetrics) (k : labelvalues)
  : StateCollectorMetrics :=
  {| soc := remove (soc self) k;
     charging := remove (charging self) k;
     temperature := remove (temperature self) k;
     last_contact := remove (last_contact self) k |}.

(** [StateCollectorMetrics.cleanup_expired(max_age)], with [now] the
    value read from [time.time()]. *)
Definition cleanup_expired (self : StateCollectorMetrics) (max_age : Z)
    (now : V) : StateCollectorMetrics :=
  let max_last_contact := float_sub now (float max_age) in
  foldl remove_labels self (to_remove self max_last_contact).

(** ** StateReporterListener.datagramReceived *)

Definition protocol_version (data : bytes) : Z :=
  int_from_bytes (slice 0 1 data) false.
Definition host_id (data : bytes) : Z :=
  int_from_bytes (slice 1 3 data) false.
Definition soc_value (data : bytes) : Z :=
  int_from_bytes (slice 3 4 data) false.
(** [data[4] & 1]; indexing past the end raises [IndexError]. *)
Definition charging_value (data : bytes) : option Z :=
  (fun b => Z.land (byte_val b) 1) <$> data !! 4%nat.
Definition temperature_value (data : bytes) : Z :=
  int_from_bytes (slice 5 6 data) true.

(** What a call prints. *)
Inductive printed :=
| Invalid_data_length
| Values (soc_value charging_value temperature_value : Z)
         (last_contact_value : V)
| Unsupported_protocol_version.

Inductive exn := IndexError.

(** Lines 69-72: the four gauges are set for one label tuple. *)
Definition set_values (self : StateCollectorMetrics) (k : labelvalues)
    (soc_value charging_value temperature_value : Z) (last_contact_value : V)
  : StateCollectorMetrics :=
  {| soc := set (soc self) k (float soc_value);
     charging := set (charging self) k (float charging_value);
     temperature := set (temperature self) k (float temperature_value);
     last_contact := set (last_contact self) k last_contact_value |}.

(** The handler returns what it printed, or the exception that left it,
    and the metrics object it holds.  [address] is the sender's
    [(host, port)]; [now] is the value read from [time.time()]. *)
Definition datagramReceived (self : StateCollectorMetrics) (data : bytes)
    (address : string * Z) (now : V)
  : (exn + printed) * StateCollectorMetrics :=
  if (length data <? 1)%nat then (inr Invalid_data_length, self)
  else if protocol_version data =? 1 then
    match charging_value data with
    | None => (inl IndexError, self)
    | Some charging_value =>
        let last_contact_value := now in
        (inr (Values (soc_value data) charging_value
                     (temperature_value data) last_contact_value),
         set_values self (labels address.1 (host_id data))
                    (soc_value data) charging_value
                    (temperature_value data) last_contact_value)
    end
  else (inr Unsupported_protocol_version, self).

(** ** The reactor

    [start_network] hands the one metrics object to the UDP listener and
    to the looping call of [cleanup_expired]; the reactor runs one
    callback at a time. *)
Inductive event :=
| Datagram (data : bytes) (address : string * Z) (now : V)
| Cleanup (max_age : Z) (now : V).

Definition step (self : StateCollectorMetrics) (e : event)
  : StateCollectorMetrics :=
  match e with
  | Datagram data address now => (datagramReceived self data address now).2
  | Cleanup max_age now => cleanup_expired self max_age now
  end.

Definition run (evs : list event) : StateCollectorMetrics :=
  foldl step init evs.

(** ** What a scrape sees

    The gauges in the order they were registered, and the labelled
    samples of one gauge: the label names zipped with the label values. *)
Definition families (self : StateCollectorMetrics) : list Gauge :=
  [soc self; charging self; temperature self; last_contact self].

Definition samples (g : Gauge) : list (string * list (string * string) * V) :=
  (fun kv : labelvalues * V =>
     (_name g, zip (_labelnames g) [kv.1.1; kv.1.2], kv.2))
    <$> map_to_list (_metrics g).

(** ** Vocabulary of the statements *)

(** What a gauge is registered with, apart from the documentation. *)
Definition metadata (g : Gauge) : string * list string :=
  (_name g, _labelnames g).

(** The four values held for a label tuple, in the order state of
    charge, charging, temperature, last contact. *)
Definition values_at (self : StateCollectorMetrics) (k : labelvalues)
  : option V * option V * option V * option V :=
  (_metrics (soc self) !! k, _metrics (charging self) !! k,
   _metrics (temperature self) !! k, _metrics (last_contact self) !! k).

Definition absent : option V * option V * option V * option V :=
  (None, None, None, None).

Definition same_keys (self : StateCollectorMetrics) : Prop :=
  dom (_metrics (soc self)) = dom (_metrics (last_contact self)) /\
  dom (_metrics (charging self)) = dom (_metrics (last_contact self)) /\
  dom (_metrics (temperature self)) = dom (_metrics (last_contact self)).

End Collector.

(** ** StateCollector

    The composition root: the configuration it is constructed with and
    the one metrics object, which [__init__] hands to the listener
    ([self.state_reporter_listener.metrics] is the same object).  The
    attributes [last_contact], [temperature], [charging] and [soc] of
    this class are set to [None] and never read. *)

Section Process.

Context {V : Type} `{PyFloat V}.

Record StateCollector := mkStateCollector {
  tcp_port : Z;
  udp_port : Z;
  tcp_listen_address : option string;
  udp_listen_address : option string;
  statistics_timeout : Z;
  metrics : @StateCollectorMetrics V
}.

(** [StateCollector.__init__], every keyword argument given. *)
Definition StateCollector_init (tcp_port udp_port : Z)
    (tcp_listen_address udp_listen_address : option string)
    (statistics_timeout : Z) : StateCollector :=
  {| tcp_port := tcp_port; udp_port := udp_port;
     tcp_listen_address := tcp_listen_address;
     udp_listen_address := udp_listen_address;
     statistics_timeout := statistics_timeout;
     metrics := init |}.

(** What the reactor calls into this file once [start_network] has set
    it up: [datagramReceived] for a datagram on the UDP port, and the
    looping call [self.metrics.cleanup_expired(self.statistics_timeout)].
    Each carries the value its [time.time()] returns.  An exception
    that leaves [datagramReceived] is logged by the UDP port and the
    reactor goes on.  HTTP requests are served by the library from the
    registry and call nothing here. *)
Inductive callback :=
| UDP (data : bytes) (address : string * Z) (now : V)
| LoopingCall (now : V).

Definition dispatch (self : StateCollector) (cb : callback) : StateCollector :=
  let metrics' :=
    match cb with
    | UDP data address now =>
        (datagramReceived (metrics self) data address now).2
    | LoopingCall now =>
        cleanup_expired (metrics self) (statistics_timeout self) now
    end in
  {| tcp_port := tcp_port self; udp_port := udp_port self;
     tcp_listen_address := tcp_listen_address self;
     udp_listen_address := udp_listen_address self;
     statistics_timeout := statistics_timeout self;
     metrics := metrics' |}.

(** [StateCollector.start_network]: [l.start(30)] runs the sweep once
    at once (at [now0]), then [reactor.run()] serves the callbacks
    [cbs] in the order they become due. *)
Definition start_network (self : StateCollector) (now0 : V)
    (cbs : list callback) : StateCollector :=
  foldl dispatch self (LoopingCall now0 :: cbs).

(** The callbacks of a collector as events on its metrics object. *)
Definition event_of (self : StateCollector) (cb : callback) : @event V :=
  match cb with
  | UDP data address now => Datagram data address now
  | LoopingCall now => Cleanup (statistics_timeout self) now
  end.

(** ** More vocabulary *)

(** What a gauge is constructed with and never changes. *)
Definition static (g : @Gauge V) : string * string * list string :=
  (_name g, _documentation g, _labelnames g).

(** [e] is a datagram that the handler accepts, [k] is the label tuple
    it writes and [vs] are the four values it writes there. *)
Definition reported_by (e : @event V) (k : string * string)
    (vs : option V * option V * option V * option V) : Prop :=
  match e with
  | Datagram data address now =>
      exists c,
        protocol_version data = 1 /\ charging_value data = Some c /\
        k = labels address.1 (host_id data) /\
        vs = (Some (float (soc_value data)), Some (float c),
              Some (float (temperature_value data)), Some now)
  | Cleanup _ _ => False
  end.

Definition is_Datagram (e : @event V) : bool :=
  match e with Datagram _ _ _ => true | Cleanup _ _ => false end.

End Process.

(** ** Concrete inputs *)

Definition example_payload : bytes := [x01; x00; x2a; x50; x01; xf6].
Definition short_payload : bytes := [x01; x00; x2a; x50; x01].
Definition other_payload : bytes := [x01; x00; x2a; x14; x00; x19].
Definition alice : string * Z := ("10.0.0.1"%string, 40000).
Definition bob : string * Z := ("10.0.0.2"%string, 40000).

Definition alice_key : string * string := ("10.0.0.1", "42")%string.
Definition bob_key : string * string := ("10.0.0.2", "42")%string.

(** The metrics object after the example payload arrived from [alice]
    at second 1000. *)
Definition after_alice : @StateCollectorMetrics Z :=
  (datagramReceived init example_payload alice 1000).2.

(** One report from [alice] at second 1000. *)
Definition alice_reports : list (@event Z) :=
  [Datagram example_payload alice 1000].

(** The collector as [__main__] constructs it when no option is given. *)
Definition default_collector : @StateCollector Z :=
  StateCollector_init 9091 1234 (Some ""%string) (Some ""%string) 900.

(** The names the specification gives to the four families. *)
Definition spec_metric_names : list string :=
  ["state-of-charge"; "charging-status"; "temperature-celsius";
   "last-contact-epoch-seconds"]%string.

(** ** Facts about the byte decoders *)

Lemma byte_val_range (b : byte) : 0 <= byte_val b < 256.
Proof.
  unfold byte_val. pose proof (Byte.to_N_bounded b). lia.
Qed.

Lemma from_bytes_unsigned_snoc (b : bytes) (x : byte) :
  from_bytes_unsigned (b ++ [x]) = from_bytes_unsigned b * 256 + byte_val x.
Proof. unfold from_bytes_unsigned. by rewrite foldl_app. Qed.

Lemma from_bytes_unsigned_range (b : bytes) :
  0 <= from_bytes_unsigned b < 256 ^ Z.of_nat (length b).
Proof.
  induction b as [|x b IH] using rev_ind; [done|].
  rewrite from_bytes_unsigned_snoc, length_app, Nat2Z.inj_add, Z.pow_add_r by lia.
  pose proof (byte_val_range x). cbn [length]. lia.
Qed.

Lemma length_slice (i j : nat) (data : bytes) :
  (length (slice i j data) <= j - i)%nat.
Proof. unfold slice. rewrite length_take. lia. Qed.

Lemma host_id_range (data : bytes) : 0 <= host_id data < 65536.
Proof.
  unfold host_id, int_from_bytes. cbn [andb].
  pose proof (from_bytes_unsigned_range (slice 1 3 data)) as Hr.
  pose proof (length_slice 1 3 data) as Hl.
  assert (256 ^ Z.of_nat (length (slice 1 3 data)) <= 256 ^ 2)
    by (apply Z.pow_le_mono_r; lia).
  lia.
Qed.

Lemma protocol_version_cons (b : byte) (rest : bytes) :
  protocol_version (b :: rest) = byte_val b.
Proof. unfold protocol_version, int_from_bytes. by cbn. Qed.

Example int_from_bytes_signed_byte :
  int_from_bytes [x7f] true = 127 ∧ int_from_bytes [x80] true = -128 ∧
  int_from_bytes [xff] true = -1 ∧ int_from_bytes [] true = 0 ∧
  int_from_bytes [x01; x00] false = 256 ∧ int_from_bytes [xff] false = 255.
Proof. by repeat split. Qed.

Lemma byte_val_inj (a b : byte) : byte_val a = byte_val b -> a = b.
Proof.
  unfold byte_val. intros E%(inj Z.of_N).
  pose proof (Byte.of_to_N a) as Ha. pose proof (Byte.of_to_N b) as Hb.
  congruence.
Qed.

Section Properties.

Context {V : Type} `{!PyFloat V}.

Implicit Types (self : @StateCollectorMetrics V) (data : bytes).
Implicit Types (address : string * Z) (now : V) (k : string * string).

(** ** The gauges, one label tuple at a time *)

Lemma values_at_set_values_eq self k s c t l :
  values_at (set_values self k s c t l) k
  = (Some (float s), Some (float c), Some (float t), Some l).
Proof. unfold values_at; cbn. by rewrite !lookup_insert_eq. Qed.

Lemma values_at_set_values_ne self k k' s c t l :
  k ≠ k' → values_at (set_values self k s c t l) k' = values_at self k'.
Proof. intros Hne. unfold values_at; cbn. by rewrite !lookup_insert_ne. Qed.

Lemma values_at_remove_labels self k k' :
  values_at (remove_labels self k) k'
  = if decide (k = k') then absent else values_at self k'.
Proof.
  unfold values_at, absent; cbn. rewrite !lookup_delete.
  by case_decide.
Qed.

Lemma values_at_foldl_remove_labels (ks : list (string * string)) self k :
  values_at (foldl remove_labels self ks) k
  = if decide (k ∈ ks) then absent else values_at self k.
Proof.
  revert self. induction ks as [|k0 ks IH]; intros self; cbn [foldl].
  - by rewrite decide_False by apply not_elem_of_nil.
  - rewrite IH, values_at_remove_labels.
    destruct (decide (k ∈ ks)) as [Hin|Hnin].
    + by rewrite decide_True by (by right).
    + destruct (decide (k0 = k)) as [->|Hne].
      * by rewrite decide_True by left.
      * rewrite decide_False; [done|].
        intros [->|?]%elem_of_cons; done.
Qed.

(** ** The branches of the handler *)

Lemma datagramReceived_empty self address now :
  datagramReceived self [] address now = (inr Invalid_data_length, self).
Proof. reflexivity. Qed.

Lemma datagramReceived_other_version self b rest address now :
  b ≠ x01 →
  datagramReceived self (b :: rest) address now
  = (inr Unsupported_protocol_version, self).
Proof.
  intros Hb. unfold datagramReceived. cbn [length Nat.ltb Nat.leb].
  rewrite protocol_version_cons.
  destruct (Z.eqb_spec (byte_val b) 1) as [E|]; [|done].
  destruct Hb. by apply byte_val_inj.
Qed.

Lemma datagramReceived_version_1 self rest address now :
  datagramReceived self (x01 :: rest) address now
  = match charging_value (x01 :: rest) with
    | None => (inl IndexError, self)
    | Some c =>
        (inr (Values (soc_value (x01 :: rest)) c
                     (temperature_value (x01 :: rest)) now),
         set_values self (labels address.1 (host_id (x01 :: rest)))
                    (soc_value (x01 :: rest)) c
                    (temperature_value (x01 :: rest)) now)
    end.
Proof. reflexivity. Qed.

Lemma datagramReceived_Values self data address now s c t l :
  (datagramReceived self data address now).1 = inr (Values s c t l) →
  s = soc_value data ∧ charging_value data = Some c ∧
  t = temperature_value data ∧ l = now ∧
  (datagramReceived self data address now).2
  = set_values self (labels address.1 (host_id data)) s c t now.
Proof.
  unfold datagramReceived.
  destruct (length data <? 1)%nat; [done|].
  destruct (protocol_version data =? 1); [|done].
  destruct (charging_value data) as [c'|]; [|done].
  cbn. intros [= -> -> -> ->]. done.
Qed.

Lemma labels_inj ip1 h1 ip2 h2 :
  labels ip1 h1 = labels ip2 h2 ↔ ip1 = ip2 ∧ h1 = h2.
Proof.
  unfold labels. split.
  - intros [= -> Hp]. split; [done|]. by apply (inj pretty).
  - by intros [-> ->].
Qed.

Lemma datagramReceived_truncated self rest address now :
  (length rest < 4)%nat →
  datagramReceived self (x01 :: rest) address now = (inl IndexError, self).
Proof.
  intros Hlen. rewrite datagramReceived_version_1.
  unfold charging_value. by rewrite lookup_ge_None_2 by (cbn; lia).
Qed.

(** ** The decoder on the documented payloads *)

(** C1: whatever the sender's address, the metrics object and the clock,
    the datagram 01 00 2A 50 01 F6 is accepted with state of charge 80,
    charging 1, temperature -10 and host identifier 42, and afterwards
    the four gauges hold exactly these values (and the receipt time)
    under the label tuple (sender address, "42"). *)
Theorem example_payload_decoded self address now :
  let r := datagramReceived self example_payload address now in
  r.1 = inr (Values 80 1 (-10) now) ∧
  host_id example_payload = 42 ∧
  values_at r.2 (address.1, "42"%string)
  = (Some (float 80), Some (float 1), Some (float (-10)), Some now).
Proof.
  cbn zeta. unfold example_payload. rewrite datagramReceived_version_1.
  repeat split. apply values_at_set_values_eq.
Qed.

(** C4 (evaluation of the handler where the claim fails): the five-byte
    datagram 01 00 2A 50 01 is not rejected.  It is reported with
    temperature 0 and creates the entry for host 42 in a table that did
    not have it. *)
Theorem short_payload_accepted address now :
  let r := datagramReceived init short_payload address now in
  r.1 = inr (Values 80 1 0 now) ∧
  values_at (V:=V) init (address.1, "42"%string) = absent ∧
  values_at r.2 (address.1, "42"%string)
  = (Some (float 80), Some (float 1), Some (float 0), Some now).
Proof.
  cbn zeta. unfold short_payload. rewrite datagramReceived_version_1.
  repeat split. apply values_at_set_values_eq.
Qed.

(** C5: a datagram whose first byte is not 1 is answered with
    'Unsupported protocol version' whatever follows the first byte (also
    when nothing follows): no value is reported and the metrics object
    is returned as it was.  The empty datagram is answered with
    'Invalid data length', the metrics object again untouched. *)
Theorem unsupported_version_rejected self b rest address now :
  b ≠ x01 →
  datagramReceived self (b :: rest) address now
  = (inr Unsupported_protocol_version, self) ∧
  datagramReceived self [b] address now
  = (inr Unsupported_protocol_version, self) ∧
  datagramReceived self [] address now = (inr Invalid_data_length, self).
Proof.
  intros Hb. split_and!.
  - by apply datagramReceived_other_version.
  - by apply datagramReceived_other_version.
  - apply datagramReceived_empty.
Qed.

(** C10: every five-byte datagram that starts with 01 is accepted.  The
    host identifier is bytes 1-2 read big-endian, the state of charge is
    byte 3, charging is bit 0 of byte 4, and the temperature, read from
    the empty slice at offset 5, is 0; the four gauges hold these values
    under (sender address, host identifier). *)
Theorem five_bytes_accepted self b1 b2 b3 b4 address now :
  let data := [x01; b1; b2; b3; b4] in
  let r := datagramReceived self data address now in
  let hid := byte_val b1 * 256 + byte_val b2 in
  r.1 = inr (Values (byte_val b3) (Z.land (byte_val b4) 1) 0 now) ∧
  host_id data = hid ∧
  temperature_value data = 0 ∧
  values_at r.2 (labels address.1 hid)
  = (Some (float (byte_val b3)), Some (float (Z.land (byte_val b4) 1)),
     Some (float 0), Some now).
Proof.
  cbn zeta. rewrite datagramReceived_version_1.
  assert (host_id [x01; b1; b2; b3; b4] = byte_val b1 * 256 + byte_val b2)
    as Hh by reflexivity.
  assert (soc_value [x01; b1; b2; b3; b4] = byte_val b3)
    as Hs by reflexivity.
  assert (temperature_value [x01; b1; b2; b3; b4] = 0)
    as Ht by reflexivity.
  assert (charging_value [x01; b1; b2; b3; b4]
          = Some (Z.land (byte_val b4) 1)) as Hc by reflexivity.
  rewrite Hc, Hh, Hs, Ht. cbn [fst snd].
  split_and!; try done. apply values_at_set_values_eq.
Qed.

(** ** The four gauges move together *)

Lemma same_keys_set_values self k s c t l :
  same_keys self → same_keys (set_values self k s c t l).
Proof.
  unfold same_keys; cbn. rewrite !dom_insert_L.
  intros (-> & -> & ->). done.
Qed.

Lemma same_keys_remove_labels self k :
  same_keys self → same_keys (remove_labels self k).
Proof.
  unfold same_keys; cbn. rewrite !dom_delete_L.
  intros (-> & -> & ->). done.
Qed.

Lemma same_keys_cleanup_expired self max_age now :
  same_keys self → same_keys (cleanup_expired self max_age now).
Proof.
  unfold cleanup_expired. generalize (to_remove self (float_sub now (float max_age))).
  intros ks. revert self.
  induction ks as [|k ks IH]; intros self Hs; [done|].
  cbn [foldl]. by apply IH, same_keys_remove_labels.
Qed.

Lemma same_keys_datagramReceived self data address now :
  same_keys self → same_keys (datagramReceived self data address now).2.
Proof.
  intros Hs. unfold datagramReceived.
  destruct (length data <? 1)%nat; [done|].
  destruct (protocol_version data =? 1); [|done].
  destruct (charging_value data); [|done].
  by apply same_keys_set_values.
Qed.

Lemma same_keys_step self e : same_keys self → same_keys (step self e).
Proof.
  destruct e; cbn.
  - apply same_keys_datagramReceived.
  - apply same_keys_cleanup_expired.
Qed.

Lemma same_keys_values_at self k :
  same_keys self →
  values_at self k = absent ∨
  ∃ s c t l, values_at self k = (Some s, Some c, Some t, Some l).
Proof.
  intros (Hs & Hc & Ht). unfold values_at, absent.
  destruct (_metrics (last_contact self) !! k) as [l|] eqn:Hl.
  - right.
    assert (k ∈ dom (_metrics (last_contact self))) as Hin
      by (apply elem_of_dom; eauto).
    pose proof Hin as Hin1. pose proof Hin as Hin2.
    rewrite <- Hs in Hin. rewrite <- Hc in Hin1. rewrite <- Ht in Hin2.
    apply elem_of_dom in Hin as [s ->]. apply elem_of_dom in Hin1 as [c ->].
    apply elem_of_dom in Hin2 as [t ->]. by exists s, c, t, l.
  - left.
    assert (k ∉ dom (_metrics (last_contact self))) as Hnin
      by (by apply not_elem_of_dom).
    pose proof Hnin as Hn1. pose proof Hnin as Hn2.
    rewrite <- Hs in Hnin. rewrite <- Hc in Hn1. rewrite <- Ht in Hn2.
    apply not_elem_of_dom in Hnin as ->. apply not_elem_of_dom in Hn1 as ->.
    apply not_elem_of_dom in Hn2 as ->. done.
Qed.

(** ** The expiry sweep *)

Lemma elem_of_to_remove self (max_last_contact : V) k :
  k ∈ to_remove self max_last_contact ↔
  ∃ t, _metrics (last_contact self) !! k = Some t ∧
       float_lt t max_last_contact = true.
Proof.
  unfold to_remove. rewrite list_elem_of_fmap. split.
  - intros [[k' t] [-> [Hlt Hin]%list_elem_of_filter]].
    apply elem_of_map_to_list in Hin. by exists t.
  - intros (t & Hk & Hlt). exists (k, t). split; [done|].
    apply list_elem_of_filter. split; [done|].
    by apply elem_of_map_to_list.
Qed.

Lemma values_at_cleanup_expired self max_age now k :
  values_at (cleanup_expired self max_age now) k
  = if decide (k ∈ to_remove self (float_sub now (float max_age)))
    then absent else values_at self k.
Proof. unfold cleanup_expired. apply values_at_foldl_remove_labels. Qed.

Lemma to_remove_cleanup_expired self max_age now :
  to_remove (cleanup_expired self max_age now)
            (float_sub now (float max_age)) = [].
Proof.
  apply elem_of_nil_inv. intros k (t & Hk & Hlt)%elem_of_to_remove.
  pose proof (values_at_cleanup_expired self max_age now k) as Hv.
  destruct (decide (k ∈ _)) as [|Hnin]; unfold values_at, absent in Hv.
  - congruence.
  - apply Hnin, elem_of_to_remove. exists t. split; [congruence|done].
Qed.



(** C2: one sweep, for an arbitrary metrics object, age and clock
    reading.  A label tuple whose last contact is below
    [now - max_age] is gone from all four gauges afterwards; a label
    tuple whose last contact is not below it keeps its four values; and
    nothing else is touched (a tuple without a last contact keeps what
    it had). *)
Theorem cleanup_expired_removes_exactly_expired self max_age now k :
  let max_last_contact := float_sub now (float max_age) in
  let self' := cleanup_expired self max_age now in
  (∀ t, _metrics (last_contact self) !! k = Some t →
        float_lt t max_last_contact = true →
        values_at self' k = absent) ∧
  (∀ t, _metrics (last_contact self) !! k = Some t →
        float_lt t max_last_contact = false →
        values_at self' k = values_at self k) ∧
  (_metrics (last_contact self) !! k = None →
   values_at self' k = values_at self k).
Proof.
  cbn zeta. rewrite values_at_cleanup_expired. split_and!.
  - intros t Hk Hlt. rewrite decide_True; [done|].
    apply elem_of_to_remove. by exists t.
  - intros t Hk Hlt. rewrite decide_False; [done|].
    intros (t' & Hk' & Hlt')%elem_of_to_remove. congruence.
  - intros Hk. rewrite decide_False; [done|].
    intros (t' & Hk' & Hlt')%elem_of_to_remove. congruence.
Qed.

(** C6: a second sweep with the same age, at the same clock reading and
    with nothing received in between, finds nothing to remove and
    returns the swept metrics object as it is; the surviving label
    tuples are the same after both calls. *)
Theorem cleanup_expired_idempotent self max_age now :
  let self' := cleanup_expired self max_age now in
  to_remove self' (float_sub now (float max_age)) = [] ∧
  cleanup_expired self' max_age now = self' ∧
  dom (_metrics (last_contact (cleanup_expired self' max_age now)))
  = dom (_metrics (last_contact self')).
Proof.
  cbn zeta.
  assert (cleanup_expired (cleanup_expired self max_age now) max_age now
          = cleanup_expired self max_age now) as E.
  { unfold cleanup_expired at 1.
    by rewrite to_remove_cleanup_expired. }
  split_and!; [apply to_remove_cleanup_expired|done|by rewrite E].
Qed.

(** ** Reachable metrics objects *)

(** C7: after any sequence of received datagrams and sweeps, started
    from the freshly constructed metrics object, the four gauges have
    the same set of label tuples: a tuple has a value in all four or in
    none. *)
Theorem gauges_share_label_tuples (evs : list event) :
  same_keys (run evs) ∧
  ∀ k, values_at (run evs) k = absent ∨
       ∃ s c t l, values_at (run evs) k = (Some s, Some c, Some t, Some l).
Proof.
  assert (same_keys (run evs)) as Hs.
  { unfold run. induction evs as [|e evs IH] using rev_ind; [done|].
    rewrite foldl_app. by apply same_keys_step. }
  split; [done|]. intros k. by apply same_keys_values_at.
Qed.

(** ** Last write wins, per label tuple *)

(** C3: two accepted datagrams whose sender address and host
    identifier agree, handled one after the other.  Afterwards the four
    gauges hold, under the shared label tuple, the second report's state
    of charge, charging flag, temperature and receipt time, whatever the
    first report said; every other label tuple is as it was before the
    second report, so the second report adds no entry. *)
Theorem last_report_wins self d1 a1 now1 d2 a2 now2 s1 c1 t1 s2 c2 t2 :
  let r1 := datagramReceived self d1 a1 now1 in
  let r2 := datagramReceived r1.2 d2 a2 now2 in
  let k := labels a2.1 (host_id d2) in
  r1.1 = inr (Values s1 c1 t1 now1) →
  r2.1 = inr (Values s2 c2 t2 now2) →
  labels a1.1 (host_id d1) = k →
  values_at r2.2 k
  = (Some (float s2), Some (float c2), Some (float t2), Some now2) ∧
  (∀ k', k' ≠ k → values_at r2.2 k' = values_at r1.2 k') ∧
  dom (_metrics (last_contact r2.2)) = dom (_metrics (last_contact r1.2)).
Proof.
  cbn zeta. intros H1 H2 Hk.
  apply datagramReceived_Values in H1 as (_ & _ & _ & _ & E1).
  apply datagramReceived_Values in H2 as (_ & _ & _ & _ & E2).
  rewrite E2. split_and!.
  - apply values_at_set_values_eq.
  - intros k' Hne. by apply values_at_set_values_ne.
  - rewrite E1, Hk. cbn. by rewrite insert_insert_eq, !dom_insert_L.
Qed.

(** ** The label tuple is (sender address, host identifier) *)

(** C8: an accepted datagram writes the entry under
    (sender address, host identifier) and no other; the host identifier
    is a 16-bit number; the label tuples of two accepted datagrams
    coincide exactly when both the sender addresses and the host
    identifiers coincide; and when they differ, each report's values are
    found under its own tuple after both have been handled. *)
Theorem entries_keyed_by_address_and_host
    self d1 a1 now1 d2 a2 now2 s1 c1 t1 s2 c2 t2 :
  let r1 := datagramReceived self d1 a1 now1 in
  let r2 := datagramReceived r1.2 d2 a2 now2 in
  let k1 := labels a1.1 (host_id d1) in
  let k2 := labels a2.1 (host_id d2) in
  r1.1 = inr (Values s1 c1 t1 now1) →
  r2.1 = inr (Values s2 c2 t2 now2) →
  (k1 = k2 ↔ a1.1 = a2.1 ∧ host_id d1 = host_id d2) ∧
  0 <= host_id d1 < 65536 ∧ 0 <= host_id d2 < 65536 ∧
  (∀ k, k ≠ k1 → values_at r1.2 k = values_at self k) ∧
  (∀ k, k ≠ k2 → values_at r2.2 k = values_at r1.2 k) ∧
  values_at r2.2 k2
  = (Some (float s2), Some (float c2), Some (float t2), Some now2) ∧
  (k1 ≠ k2 →
   values_at r2.2 k1
   = (Some (float s1), Some (float c1), Some (float t1), Some now1)).
Proof.
  cbn zeta. intros H1 H2.
  apply datagramReceived_Values in H1 as (_ & _ & _ & _ & E1).
  apply datagramReceived_Values in H2 as (_ & _ & _ & _ & E2).
  rewrite E2, E1.
  split; [apply labels_inj|].
  split; [apply host_id_range|]. split; [apply host_id_range|].
  split_and!.
  - intros k Hne. by apply values_at_set_values_ne.
  - intros k Hne. by apply values_at_set_values_ne.
  - apply values_at_set_values_eq.
  - intros Hne. rewrite values_at_set_values_ne by done.
    apply values_at_set_values_eq.
Qed.

(** ** The registered families *)

Lemma metadata_set (g : @Gauge V) k v : metadata (set g k v) = metadata g.
Proof. reflexivity. Qed.

Lemma metadata_remove_labels self k :
  metadata <$> families (remove_labels self k) = metadata <$> families self.
Proof. reflexivity. Qed.

Lemma metadata_cleanup_expired self max_age now :
  metadata <$> families (cleanup_expired self max_age now)
  = metadata <$> families self.
Proof.
  unfold cleanup_expired.
  generalize (to_remove self (float_sub now (float max_age))).
  intros ks. revert self.
  induction ks as [|k ks IH]; intros self; [done|].
  cbn [foldl]. by rewrite IH, metadata_remove_labels.
Qed.

Lemma metadata_datagramReceived self data address now :
  metadata <$> families (datagramReceived self data address now).2
  = metadata <$> families self.
Proof.
  unfold datagramReceived.
  destruct (length data <? 1)%nat; [done|].
  destruct (protocol_version data =? 1); [|done].
  by destruct (charging_value data).
Qed.

Lemma metadata_run (evs : list event) :
  metadata <$> families (run evs)
  = [("soc", metric_labels); ("charging", metric_labels);
     ("temperature", metric_labels); ("last_contact", metric_labels)]%string.
Proof.
  unfold run. induction evs as [|e evs IH] using rev_ind; [done|].
  rewrite foldl_app. cbn [foldl]. rewrite <- IH.
  destruct e; cbn [step].
  - apply metadata_datagramReceived.
  - apply metadata_cleanup_expired.
Qed.

Lemma samples_label_names (g : @Gauge V) :
  _labelnames g = metric_labels →
  Forall (λ smp, smp.1.2.*1 = ["ip"; "host"]%string) (samples g).
Proof.
  intros Hl. unfold samples. apply Forall_fmap, Forall_forall.
  intros [[ip host] v] _. cbn. by rewrite Hl.
Qed.

(** C9 (as amended: the names are those the constructor registers):
    whatever datagrams and sweeps have been handled, the metrics object
    consists of exactly four gauges, named soc, charging, temperature and
    last_contact in this order, each declared with the two label names ip
    and host, and every sample of every one of them carries exactly the
    labels ip and host. *)
Theorem registered_families (evs : list event) :
  _name <$> families (run evs)
  = ["soc"; "charging"; "temperature"; "last_contact"]%string ∧
  Forall (λ g, _labelnames g = ["ip"; "host"]%string) (families (run evs)) ∧
  Forall (λ g, Forall (λ smp, smp.1.2.*1 = ["ip"; "host"]%string) (samples g))
         (families (run evs)).
Proof.
  pose proof (metadata_run evs) as Hm.
  unfold families, metadata in *. cbn in Hm.
  injection Hm as Hn1 Hl1 Hn2 Hl2 Hn3 Hl3 Hn4 Hl4.
  split_and!.
  - cbn. by rewrite Hn1, Hn2, Hn3, Hn4.
  - by repeat constructor.
  - repeat constructor; by apply samples_label_names.
Qed.

End Properties.

(** ** The theorems at concrete inputs

    Time is counted in whole seconds ([Z_seconds]). *)

(** C5 at the one-byte datagram 02. *)
Lemma unsupported_version_rejected_witness :
  x02 ≠ x01 ∧
  datagramReceived after_alice [x02; x00; x2a] alice 1005
  = (inr Unsupported_protocol_version, after_alice) ∧
  datagramReceived after_alice [x02] alice 1005
  = (inr Unsupported_protocol_version, after_alice) ∧
  datagramReceived after_alice [] alice 1005
  = (inr Invalid_data_length, after_alice).
Proof.
  split; [discriminate|].
  apply (unsupported_version_rejected after_alice x02 [x00; x2a] alice 1005).
  discriminate.
Defined.

(** C2 for the entry written at second 1000 and a horizon of 900
    seconds: the sweep at second 1901 removes it, the sweep at second
    1900 keeps it. *)
Lemma cleanup_expired_removes_exactly_expired_witness :
  _metrics (last_contact after_alice) !! alice_key = Some 1000 ∧
  float_lt 1000 (float_sub 1901 (float 900)) = true ∧
  float_lt 1000 (float_sub 1900 (float 900)) = false ∧
  values_at (cleanup_expired after_alice 900 1901) alice_key = absent ∧
  values_at (cleanup_expired after_alice 900 1900) alice_key
  = values_at after_alice alice_key.
Proof.
  assert (_metrics (last_contact after_alice) !! alice_key = Some 1000)
    as Hk by (vm_compute; reflexivity).
  split; [exact Hk|]. split; [reflexivity|]. split; [reflexivity|]. split.
  - apply (proj1 (cleanup_expired_removes_exactly_expired
                    after_alice 900 1901 alice_key) 1000 Hk).
    reflexivity.
  - apply (proj1 (proj2 (cleanup_expired_removes_exactly_expired
                           after_alice 900 1900 alice_key)) 1000 Hk).
    reflexivity.
Defined.

(** C3 for two reports of host 42 sent from 10.0.0.1: the entry holds
    the second report (20, not charging, 25 degrees, second 1010). *)
Lemma last_report_wins_witness :
  (datagramReceived init example_payload alice 1000).1
  = inr (Values 80 1 (-10) 1000) ∧
  (datagramReceived after_alice other_payload alice 1010).1
  = inr (Values 20 0 25 1010) ∧
  labels alice.1 (host_id example_payload)
  = labels alice.1 (host_id other_payload) ∧
  values_at (datagramReceived after_alice other_payload alice 1010).2
            alice_key
  = (Some 20, Some 0, Some 25, Some 1010).
Proof.
  split; [reflexivity|]. split; [reflexivity|]. split; [reflexivity|].
  exact (proj1 (last_report_wins init example_payload alice 1000
                  other_payload alice 1010 80 1 (-10) 20 0 25
                  eq_refl eq_refl eq_refl)).
Defined.

(** C8 for host 42 reporting from 10.0.0.1 and from 10.0.0.2: two
    entries, each with its own report. *)
Lemma entries_keyed_by_address_and_host_witness :
  (datagramReceived init example_payload alice 1000).1
  = inr (Values 80 1 (-10) 1000) ∧
  (datagramReceived after_alice other_payload bob 1010).1
  = inr (Values 20 0 25 1010) ∧
  alice_key ≠ bob_key ∧
  values_at (datagramReceived after_alice other_payload bob 1010).2 bob_key
  = (Some 20, Some 0, Some 25, Some 1010) ∧
  values_at (datagramReceived after_alice other_payload bob 1010).2 alice_key
  = (Some 80, Some 1, Some (-10), Some 1000).
Proof.
  split; [reflexivity|]. split; [reflexivity|]. split; [discriminate|].
  pose proof (entries_keyed_by_address_and_host init example_payload alice
                1000 other_payload bob 1010 80 1 (-10) 20 0 25
                eq_refl eq_refl) as (_ & _ & _ & _ & _ & Hb & Ha).
  split; [exact Hb|]. apply Ha. discriminate.
Defined.

(** C9, the names as the specification spells them: the freshly
    constructed metrics object does not register them. *)
Lemma spec_metric_names_not_registered :
  _name <$> families (run (V:=Z) []) ≠ spec_metric_names.
Proof. discriminate. Qed.

(** * Beyond the claims *)

(** ** One-byte fields *)

Lemma int_from_bytes_signed_1 (b : byte) :
  int_from_bytes [b] true
  = if byte_val b <? 128 then byte_val b else byte_val b - 256.
Proof. by destruct b. Qed.

Lemma int_from_bytes_unsigned_1 (b : byte) :
  int_from_bytes [b] false = byte_val b.
Proof. reflexivity. Qed.

Lemma land_1_odd (b : byte) :
  Z.land (byte_val b) 1 = if Z.odd (byte_val b) then 1 else 0.
Proof. by destruct b. Qed.

Lemma slice_1_cases (i : nat) (data : bytes) :
  slice i (S i) data = [] ∨ ∃ b, slice i (S i) data = [b].
Proof.
  unfold slice. replace (S i - i)%nat with 1%nat by lia.
  destruct (drop i data) as [|b l]; [by left|right]. by exists b.
Qed.

Lemma soc_value_range (data : bytes) : 0 <= soc_value data <= 255.
Proof.
  unfold soc_value.
  destruct (slice_1_cases 3 data) as [->|[b ->]]; [done|].
  rewrite int_from_bytes_unsigned_1. pose proof (byte_val_range b). lia.
Qed.

Lemma temperature_value_range (data : bytes) :
  -128 <= temperature_value data <= 127.
Proof.
  unfold temperature_value.
  destruct (slice_1_cases 5 data) as [->|[b ->]]; [done|].
  rewrite int_from_bytes_signed_1. pose proof (byte_val_range b).
  destruct (Z.ltb_spec (byte_val b) 128); lia.
Qed.

Lemma charging_value_bit (data : bytes) (c : Z) :
  charging_value data = Some c → c = 0 ∨ c = 1.
Proof.
  unfold charging_value. destruct (data !! 4%nat) as [b|]; [|done].
  cbn. intros [= <-]. rewrite land_1_odd. destruct (Z.odd _); auto.
Qed.

Lemma charging_value_is_Some (rest : bytes) :
  (4 <= length rest)%nat → is_Some (charging_value (x01 :: rest)).
Proof.
  intros Hlen. unfold charging_value.
  destruct (lookup_lt_is_Some_2 (x01 :: rest) 4) as [b ->]; [cbn; lia|].
  by eexists.
Qed.

Section Handler.

Context {V : Type} `{!PyFloat V}.

Implicit Types (self : @StateCollectorMetrics V) (data : bytes).
Implicit Types (address : string * Z) (now : V) (k : string * string).

Lemma datagramReceived_uniform data address now :
  (∃ o, (∀ s c t l, o ≠ inr (Values s c t l)) ∧
        ∀ self, datagramReceived self data address now = (o, self)) ∨
  (∃ s c t, ∀ self,
     datagramReceived self data address now
     = (inr (Values s c t now),
        set_values self (labels address.1 (host_id data)) s c t now)).
Proof.
  unfold datagramReceived.
  destruct (length data <? 1)%nat.
  { left. by exists (inr Invalid_data_length). }
  destruct (protocol_version data =? 1).
  2:{ left. by exists (inr Unsupported_protocol_version). }
  destruct (charging_value data) as [c|].
  2:{ left. by exists (inl IndexError). }
  right. by eauto.
Qed.

(** X1: which datagrams take which way out of the handler.  A report is
    printed exactly for the datagrams that start with 01 and have at
    least five bytes; [IndexError] is raised exactly for those that
    start with 01 and have fewer; 'Unsupported protocol version' is
    printed exactly for a first byte other than 01 and 'Invalid data
    length' exactly for the empty datagram.  Unless a report is printed,
    the metrics object is returned as it was. *)
Theorem datagramReceived_outcomes self data address now :
  let r := datagramReceived self data address now in
  ((∃ s c t, r.1 = inr (Values s c t now)) ↔
   ∃ rest, data = x01 :: rest ∧ (4 <= length rest)%nat) ∧
  (r.1 = inl IndexError ↔
   ∃ rest, data = x01 :: rest ∧ (length rest < 4)%nat) ∧
  (r.1 = inr Unsupported_protocol_version ↔
   ∃ b rest, data = b :: rest ∧ b ≠ x01) ∧
  (r.1 = inr Invalid_data_length ↔ data = []) ∧
  ((∀ s c t l, r.1 ≠ inr (Values s c t l)) → r.2 = self).
Proof.
  cbn zeta. destruct data as [|b rest].
  { rewrite datagramReceived_empty. cbn. split_and!; try done.
    - split; [by intros (?&?&?&?)|by intros (?&?&?)].
    - split; [done|by intros (?&?&?)].
    - split; [done|by intros (?&?&?&?)]. }
  destruct (Byte.byte_eq_dec b x01) as [->|Hb].
  2:{ rewrite datagramReceived_other_version by done. cbn. split_and!; try done.
      - split; [by intros (?&?&?&?)|]. intros (?&[= -> ->]&?). done.
      - split; [done|]. intros (?&[= -> ->]&?). done.
      - split; [|done]. intros _. by exists b, rest. }
  rewrite datagramReceived_version_1.
  destruct (decide (length rest < 4)%nat) as [Hlt|Hge].
  - unfold charging_value. rewrite lookup_ge_None_2 by (cbn; lia). cbn.
    split_and!; try done.
    + split; [by intros (?&?&?&?)|]. intros (?&[= ->]&?). lia.
    + split; [|done]. intros _. by exists rest.
    + split; [done|]. intros (?&?&[= -> ->]&?). done.
  - destruct (charging_value_is_Some rest) as [c ->]; [lia|]. cbn.
    split_and!; try done.
    + split; [|by eauto]. intros _. exists rest. split; [done|lia].
    + split; [done|]. intros (?&[= ->]&?). lia.
    + split; [done|]. intros (?&?&[= -> ->]&?). done.
    + intros Hno. by destruct (Hno _ _ _ _ eq_refl).
Qed.

(** X2: what an accepted datagram reports is within the ranges of the
    wire format: state of charge 0..255, charging 0 or 1, temperature
    -128..127, host identifier 0..65535; the last contact is the clock
    reading of the call, not anything in the payload. *)
Theorem reported_values_in_wire_range self data address now s c t l :
  (datagramReceived self data address now).1 = inr (Values s c t l) →
  0 <= s <= 255 ∧ (c = 0 ∨ c = 1) ∧ -128 <= t <= 127 ∧
  0 <= host_id data < 65536 ∧ l = now.
Proof.
  intros (-> & Hc & -> & -> & _)%datagramReceived_Values.
  split; [apply soc_value_range|].
  split; [by apply (charging_value_bit data)|].
  split; [apply temperature_value_range|].
  split; [apply host_id_range|done].
Qed.

(** X3: the layout of a version-1 datagram of six bytes or more.  Bytes
    1-2 are the host identifier, big-endian; byte 3 is the state of
    charge; of byte 4 only bit 0 counts; byte 5 is the temperature in
    two's complement; whatever follows byte 5 is ignored. *)
Theorem six_bytes_decoded self b1 b2 b3 b4 b5 rest address now :
  let s := byte_val b3 in
  let c := if Z.odd (byte_val b4) then 1 else 0 in
  let t := if byte_val b5 <? 128 then byte_val b5 else byte_val b5 - 256 in
  datagramReceived self (x01 :: b1 :: b2 :: b3 :: b4 :: b5 :: rest) address now
  = (inr (Values s c t now),
     set_values self (labels address.1 (byte_val b1 * 256 + byte_val b2))
                s c t now).
Proof.
  cbn zeta. rewrite datagramReceived_version_1.
  set (data := x01 :: b1 :: b2 :: b3 :: b4 :: b5 :: rest).
  assert (host_id data = byte_val b1 * 256 + byte_val b2) as -> by reflexivity.
  assert (soc_value data = byte_val b3) as -> by reflexivity.
  assert (temperature_value data = int_from_bytes [b5] true) as ->
    by reflexivity.
  assert (charging_value data = Some (Z.land (byte_val b4) 1)) as ->
    by reflexivity.
  by rewrite int_from_bytes_signed_1, land_1_odd.
Qed.

(** ** Reports as table updates *)

Lemma set_values_absorb self k s1 c1 t1 l1 s2 c2 t2 l2 :
  set_values (set_values self k s1 c1 t1 l1) k s2 c2 t2 l2
  = set_values self k s2 c2 t2 l2.
Proof. unfold set_values, set; cbn. by rewrite !insert_insert_eq. Qed.

Lemma set_values_commute self k1 s1 c1 t1 l1 k2 s2 c2 t2 l2 :
  k1 ≠ k2 →
  set_values (set_values self k1 s1 c1 t1 l1) k2 s2 c2 t2 l2
  = set_values (set_values self k2 s2 c2 t2 l2) k1 s1 c1 t1 l1.
Proof.
  intros Hne. unfold set_values, set; cbn.
  by rewrite !(insert_insert_ne _ k2 k1).
Qed.

(** X4: an accepted report overwrites an earlier datagram for the same
    label tuple without trace: the metrics object after both is the one
    the second report alone would have produced. *)
Theorem second_report_absorbs_first
    self d1 a1 now1 d2 a2 now2 s2 c2 t2 :
  let r1 := datagramReceived self d1 a1 now1 in
  (datagramReceived r1.2 d2 a2 now2).1 = inr (Values s2 c2 t2 now2) →
  labels a1.1 (host_id d1) = labels a2.1 (host_id d2) →
  (datagramReceived r1.2 d2 a2 now2).2 = (datagramReceived self d2 a2 now2).2.
Proof.
  cbn zeta. intros H2 Hk.
  destruct (datagramReceived_uniform d2 a2 now2)
    as [(o & Ho & E2)|(s & c & t & E2)]; rewrite !E2 in *.
  { by destruct (Ho _ _ _ _ H2). }
  destruct (datagramReceived_uniform d1 a1 now1)
    as [(o & _ & E1)|(s1 & c1 & t1 & E1)]; rewrite E1; [done|].
  cbn [snd]. rewrite Hk. apply set_values_absorb.
Qed.

(** X5: accepted or not, two datagrams for different label tuples can be
    handled in either order: the four gauges end up as the same
    mappings. *)
Theorem datagrams_for_different_tuples_commute
    self d1 a1 now1 d2 a2 now2 :
  labels a1.1 (host_id d1) ≠ labels a2.1 (host_id d2) →
  (datagramReceived (datagramReceived self d1 a1 now1).2 d2 a2 now2).2
  = (datagramReceived (datagramReceived self d2 a2 now2).2 d1 a1 now1).2.
Proof.
  intros Hne.
  destruct (datagramReceived_uniform d1 a1 now1)
    as [(o1 & _ & E1)|(s1 & c1 & t1 & E1)];
    destruct (datagramReceived_uniform d2 a2 now2)
      as [(o2 & _ & E2)|(s2 & c2 & t2 & E2)];
    rewrite ?E1, ?E2; cbn [snd]; rewrite ?E1, ?E2; try done.
  cbn [snd]. by apply set_values_commute.
Qed.

End Handler.

Section Sweeps.

Context {V : Type} `{!PyFloat V}.

Implicit Types (self : @StateCollectorMetrics V) (k : string * string).
Implicit Types (now : V) (max_age : Z).

(** ** Equality of metrics objects *)

Lemma Gauge_eq (g1 g2 : @Gauge V) :
  static g1 = static g2 → _metrics g1 = _metrics g2 → g1 = g2.
Proof.
  destruct g1, g2; unfold static; cbn. by intros [= -> -> ->] ->.
Qed.

Lemma StateCollectorMetrics_eq self1 self2 :
  static <$> families self1 = static <$> families self2 →
  (∀ k, values_at self1 k = values_at self2 k) →
  self1 = self2.
Proof.
  destruct self1 as [s1 c1 t1 l1], self2 as [s2 c2 t2 l2].
  unfold families, values_at; cbn. intros Hst Hv.
  injection Hst as Hs Hc Ht Hl.
  f_equal; (apply Gauge_eq; [unfold static; congruence|]);
    apply map_eq; intros k; specialize (Hv k); congruence.
Qed.

Lemma static_cleanup_expired self max_age now :
  static <$> families (cleanup_expired self max_age now)
  = static <$> families self.
Proof.
  unfold cleanup_expired.
  generalize (to_remove self (float_sub now (float max_age))).
  intros ks. revert self.
  induction ks as [|k ks IH]; intros self; [done|].
  cbn [foldl]. by rewrite IH.
Qed.

Lemma last_contact_cleanup_expired self max_age now k :
  _metrics (last_contact (cleanup_expired self max_age now)) !! k
  = if decide (k ∈ to_remove self (float_sub now (float max_age)))
    then None else _metrics (last_contact self) !! k.
Proof.
  pose proof (values_at_cleanup_expired self max_age now k) as Hv.
  unfold values_at, absent in Hv. case_decide; congruence.
Qed.

Lemma elem_of_to_remove_cleanup_expired self max_age now (c : V) k :
  k ∈ to_remove (cleanup_expired self max_age now) c ↔
  (k ∉ to_remove self (float_sub now (float max_age))) ∧
  (k ∈ to_remove self c).
Proof.
  rewrite !(elem_of_to_remove _ c), last_contact_cleanup_expired.
  case_decide as Hin; split.
  - by intros (t & ? & _).
  - by intros [Hn _].
  - by split.
  - by intros [_ ?].
Qed.

(** X6: two sweeps, with any ages and clock readings, can be done in
    either order; the resulting metrics object is the same. *)
Theorem cleanup_expired_commute self max_age1 now1 max_age2 now2 :
  cleanup_expired (cleanup_expired self max_age1 now1) max_age2 now2
  = cleanup_expired (cleanup_expired self max_age2 now2) max_age1 now1.
Proof.
  apply StateCollectorMetrics_eq.
  - by rewrite !static_cleanup_expired.
  - intros k. rewrite !values_at_cleanup_expired.
    pose proof (elem_of_to_remove_cleanup_expired self max_age1 now1
                  (float_sub now2 (float max_age2)) k).
    pose proof (elem_of_to_remove_cleanup_expired self max_age2 now2
                  (float_sub now1 (float max_age1)) k).
    repeat case_decide; try done; exfalso; tauto.
Qed.

(** X7: when everything below the first sweep's cutoff is also below
    the second sweep's cutoff, the first sweep makes no difference: the
    second sweep alone gives the same metrics object. *)
Theorem later_sweep_subsumes self max_age1 now1 max_age2 now2 :
  (∀ t, float_lt t (float_sub now1 (float max_age1)) = true →
        float_lt t (float_sub now2 (float max_age2)) = true) →
  cleanup_expired (cleanup_expired self max_age1 now1) max_age2 now2
  = cleanup_expired self max_age2 now2.
Proof.
  intros Hmono. apply StateCollectorMetrics_eq.
  - by rewrite !static_cleanup_expired.
  - intros k. rewrite !values_at_cleanup_expired.
    pose proof (elem_of_to_remove_cleanup_expired self max_age1 now1
                  (float_sub now2 (float max_age2)) k) as H12.
    assert (k ∈ to_remove self (float_sub now1 (float max_age1)) →
            k ∈ to_remove self (float_sub now2 (float max_age2))) as Hsub.
    { rewrite !elem_of_to_remove. intros (t & ? & ?). exists t. auto. }
    repeat case_decide; try done; exfalso; tauto.
Qed.

Lemma same_keys_run (evs : list (@event V)) : same_keys (run evs).
Proof.
  unfold run. induction evs as [|e evs IH] using rev_ind; [done|].
  rewrite foldl_app. by apply same_keys_step.
Qed.


End Sweeps.

Section Runs.

Context {V : Type} `{!PyFloat V}.

Implicit Types (self : @StateCollectorMetrics V) (k : string * string).
Implicit Types (evs : list (@event V)) (e : @event V).

Lemma run_snoc evs e : run (evs ++ [e]) = step (run evs) e.
Proof. unfold run. by rewrite foldl_app. Qed.

Lemma datagramReceived_Values_version self data address now s c t l :
  (datagramReceived self data address now).1 = inr (Values s c t l) →
  protocol_version data = 1.
Proof.
  unfold datagramReceived.
  destruct (length data <? 1)%nat; [done|].
  destruct (Z.eqb_spec (protocol_version data) 1); [done|done].
Qed.

Lemma step_values_at self e k :
  values_at (step self e) k = values_at self k ∨
  values_at (step self e) k = absent ∨
  reported_by e k (values_at (step self e) k).
Proof.
  destruct e as [data address now|max_age now]; cbn [step].
  - destruct (datagramReceived_uniform data address now)
      as [(o & _ & E)|(s & c & t & E)]; rewrite (E self); [by left|].
    cbn [snd]. destruct (decide (labels address.1 (host_id data) = k))
      as [<-|Hne].
    + right; right. rewrite values_at_set_values_eq.
      pose proof (f_equal fst (E self)) as E1. cbn [fst] in E1.
      pose proof (datagramReceived_Values_version _ _ _ _ _ _ _ _ E1).
      apply datagramReceived_Values in E1 as (-> & Hc & -> & _).
      by exists c.
    + left. by apply values_at_set_values_ne.
  - rewrite values_at_cleanup_expired. case_decide; auto.
Qed.

Lemma run_provenance evs k :
  values_at (run evs) k ≠ absent →
  ∃ e, e ∈ evs ∧ reported_by e k (values_at (run evs) k).
Proof.
  induction evs as [|e evs IH] using rev_ind; [done|].
  rewrite run_snoc. intros Hne.
  destruct (step_values_at (run evs) e k) as [E|[E|Hrep]].
  - rewrite E in *. destruct (IH Hne) as (e' & Hin & Hrep).
    exists e'. split; [|done]. apply elem_of_app. by left.
  - done.
  - exists e. split; [|done]. apply elem_of_app. right. left.
Qed.

(** X9: whatever has been received and swept, the four values held
    for a label tuple are those of one accepted datagram of the run:
    the tuple is that datagram's (sender address, host identifier), the
    values are its decoded fields and the clock reading of its receipt.
    Values of different datagrams are never mixed, and nothing appears
    that was not reported. *)
Theorem entries_are_whole_reports evs k :
  values_at (run evs) k ≠ absent →
  ∃ data address now c,
    Datagram data address now ∈ evs ∧
    protocol_version data = 1 ∧ charging_value data = Some c ∧
    k = labels address.1 (host_id data) ∧
    values_at (run evs) k
    = (Some (float (soc_value data)), Some (float c),
       Some (float (temperature_value data)), Some now).
Proof.
  intros (e & Hin & Hrep)%run_provenance.
  destruct e as [data address now|]; [|done].
  destruct Hrep as (c & ? & ? & ? & ?). by exists data, address, now, c.
Qed.

(** X10: every entry of a reachable metrics object is within the ranges
    of the wire format: the host label is the decimal form of a number
    in 0..65535, the state of charge is the float of an integer in
    0..255, charging is the float of 0 or 1 and the temperature the
    float of an integer in -128..127. *)
Theorem stored_values_in_wire_range evs k :
  values_at (run evs) k ≠ absent →
  ∃ h s c t l,
    k.2 = pretty h ∧ 0 <= h < 65536 ∧
    0 <= s <= 255 ∧ (c = 0 ∨ c = 1) ∧ -128 <= t <= 127 ∧
    values_at (run evs) k
    = (Some (float s), Some (float c), Some (float t), Some l).
Proof.
  intros (e & Hin & Hrep)%run_provenance.
  destruct e as [data address now|]; [|done].
  destruct Hrep as (c & _ & Hc & -> & ->).
  exists (host_id data), (soc_value data), c, (temperature_value data), now.
  split; [done|]. split; [apply host_id_range|].
  split; [apply soc_value_range|].
  split; [by apply (charging_value_bit data)|].
  split; [apply temperature_value_range|done].
Qed.

(** ** How many entries *)

Lemma size_last_contact_step self e :
  (size (_metrics (last_contact (step self e)))
   ≤ (if is_Datagram e then 1 else 0) + size (_metrics (last_contact self)))%nat.
Proof.
  destruct e as [data address now|max_age now]; cbn [step is_Datagram].
  - destruct (datagramReceived_uniform data address now)
      as [(o & _ & E)|(s & c & t & E)]; rewrite (E self); cbn [snd].
    { apply Nat.le_add_l. }
    cbn. rewrite map_size_insert.
    destruct (_ !! _); [apply Nat.le_succ_diag_r|apply Nat.le_refl].
  - cbn. apply map_subseteq_size, map_subseteq_spec. intros k t.
    rewrite last_contact_cleanup_expired. by case_decide.
Qed.

(** X11: a reachable metrics object has at most as many entries as
    datagrams have been handled, in each of the four gauges; sweeps add
    none. *)
Theorem entries_bounded_by_datagrams evs :
  let n := length (filter (λ e, is_Datagram e = true) evs) in
  (size (_metrics (soc (run evs))) ≤ n)%nat ∧
  (size (_metrics (charging (run evs))) ≤ n)%nat ∧
  (size (_metrics (temperature (run evs))) ≤ n)%nat ∧
  (size (_metrics (last_contact (run evs))) ≤ n)%nat.
Proof.
  cbn zeta.
  assert (size (_metrics (last_contact (run evs)))
          ≤ length (filter (λ e, is_Datagram e = true) evs))%nat as Hl.
  { induction evs as [|e evs IH] using rev_ind; [done|].
    rewrite run_snoc, filter_app, length_app.
    pose proof (size_last_contact_step (run evs) e) as Hs.
    rewrite filter_cons, filter_nil.
    destruct (is_Datagram e); case_decide; try done; cbn [length]; lia. }
  destruct (same_keys_run evs) as (Hs & Hc & Ht).
  rewrite <- !size_dom in *. rewrite Hs, Hc, Ht. done.
Qed.

(** ** The collector *)

Lemma statistics_timeout_foldl_dispatch
    (self : @StateCollector V) (cbs : list callback) :
  statistics_timeout (foldl dispatch self cbs) = statistics_timeout self.
Proof.
  revert self. induction cbs as [|cb cbs IH]; intros self; [done|].
  cbn [foldl]. by rewrite IH.
Qed.

Lemma metrics_foldl_dispatch (self : @StateCollector V) (cbs : list callback) :
  metrics (foldl dispatch self cbs)
  = foldl step (metrics self) (event_of self <$> cbs).
Proof.
  revert self. induction cbs as [|cb cbs IH]; intros self; [done|].
  cbn [foldl fmap list_fmap]. rewrite IH.
  assert (event_of (dispatch self cb) <$> cbs = event_of self <$> cbs) as ->
    by (apply list_fmap_ext; intros _ cb' _; by destruct cb').
  by destruct cb.
Qed.

Lemma last_contact_after_sweep self max_age now k t :
  _metrics (last_contact (cleanup_expired self max_age now)) !! k = Some t →
  float_lt t (float_sub now (float max_age)) = false.
Proof.
  rewrite last_contact_cleanup_expired. case_decide as Hin; [done|].
  intros Hk. destruct (float_lt _ _) eqn:Hlt; [|done].
  destruct Hin. apply elem_of_to_remove. by exists t.
Qed.

Lemma last_contact_after_datagrams self
    (dgs : list (bytes * (string * Z) * V)) k t :
  _metrics (last_contact
              (foldl step self ((λ d, Datagram d.1.1 d.1.2 d.2) <$> dgs)))
    !! k = Some t →
  _metrics (last_contact self) !! k = Some t ∨
  ∃ d, d ∈ dgs ∧ k = labels d.1.2.1 (host_id d.1.1) ∧ t = d.2.
Proof.
  induction dgs as [|[[data address] now] dgs IH] using rev_ind; [by left|].
  rewrite fmap_app, foldl_app. cbn [fmap list_fmap foldl step fst snd].
  set (mid := foldl step self _) in *.
  destruct (datagramReceived_uniform data address now)
    as [(o & _ & E)|(s & c & t' & E)]; rewrite (E mid); cbn [snd].
  - intros [?|(d & Hd & ?)]%IH; [by left|right].
    exists d. split; [|done]. apply elem_of_app. by left.
  - cbn. destruct (decide (labels address.1 (host_id data) = k)) as [<-|Hne].
    + rewrite lookup_insert_eq. intros [= <-]. right.
      exists (data, address, now). split; [|done].
      apply elem_of_app. right. left.
    + rewrite lookup_insert_ne by done.
      intros [?|(d & Hd & ?)]%IH; [by left|right].
      exists d. split; [|done]. apply elem_of_app. by left.
Qed.

(** X12: the collector's table is never staler than its last sweep
    allows.  Take any run of [start_network], look at it after a looping
    call at clock reading [now] and the datagrams handled since.  Every
    entry then has a last contact that is not below
    [now - statistics_timeout], or it is the receipt time of one of
    those later datagrams for that very label tuple. *)
Theorem collector_entries_not_stale
    (self : @StateCollector V) now0 (pre : list callback) now
    (dgs : list (bytes * (string * Z) * V)) k t :
  let post := (λ d, UDP d.1.1 d.1.2 d.2) <$> dgs in
  let final := start_network self now0 (pre ++ LoopingCall now :: post) in
  _metrics (last_contact (metrics final)) !! k = Some t →
  float_lt t (float_sub now (float (statistics_timeout self))) = false ∨
  ∃ d, d ∈ dgs ∧ k = labels d.1.2.1 (host_id d.1.1) ∧ t = d.2.
Proof.
  cbn zeta. unfold start_network.
  rewrite app_comm_cons, foldl_app. cbn [foldl].
  rewrite metrics_foldl_dispatch, <- list_fmap_compose.
  cbn [dispatch metrics].
  rewrite statistics_timeout_foldl_dispatch. cbn [statistics_timeout].
  rewrite (list_fmap_ext _ (λ d, Datagram d.1.1 d.1.2 d.2) dgs) by done.
  intros [Hk|?]%last_contact_after_datagrams; [left|by right].
  by apply last_contact_after_sweep in Hk.
Qed.



End Runs.

(** ** These theorems at concrete inputs *)

(** X2 at the example payload. *)
Lemma reported_values_in_wire_range_witness :
  (datagramReceived init example_payload alice 1000).1
  = inr (Values 80 1 (-10) 1000) ∧
  (0 <= 80 <= 255 ∧ (1 = 0 ∨ 1 = 1) ∧ -128 <= -10 <= 127 ∧
   0 <= host_id example_payload < 65536 ∧ 1000 = 1000).
Proof.
  split; [reflexivity|].
  apply (reported_values_in_wire_range init example_payload alice 1000
           80 1 (-10) 1000).
  reflexivity.
Defined.

(** X4 for two reports of host 42 from 10.0.0.1. *)
Lemma second_report_absorbs_first_witness :
  (datagramReceived after_alice other_payload alice 1010).1
  = inr (Values 20 0 25 1010) ∧
  labels alice.1 (host_id example_payload)
  = labels alice.1 (host_id other_payload) ∧
  (datagramReceived after_alice other_payload alice 1010).2
  = (datagramReceived init other_payload alice 1010).2.
Proof.
  split; [reflexivity|]. split; [reflexivity|].
  exact (second_report_absorbs_first init example_payload alice 1000
           other_payload alice 1010 20 0 25 eq_refl eq_refl).
Defined.

(** X5 for host 42 reporting from 10.0.0.1 and from 10.0.0.2. *)
Lemma datagrams_for_different_tuples_commute_witness :
  labels alice.1 (host_id example_payload)
  ≠ labels bob.1 (host_id other_payload) ∧
  (datagramReceived after_alice other_payload bob 1010).2
  = (datagramReceived (datagramReceived init other_payload bob 1010).2
                      example_payload alice 1000).2.
Proof.
  assert (labels alice.1 (host_id example_payload)
          ≠ labels bob.1 (host_id other_payload)) as Hne by discriminate.
  split; [exact Hne|].
  exact (datagrams_for_different_tuples_commute init example_payload alice
           1000 other_payload bob 1010 Hne).
Defined.

(** X7 for sweeps at seconds 1900 and 1930 with a horizon of 900. *)
Lemma later_sweep_subsumes_witness :
  (∀ t, float_lt t (float_sub 1900 (float 900)) = true →
        float_lt t (float_sub 1930 (float 900)) = true) ∧
  cleanup_expired (cleanup_expired after_alice 900 1900) 900 1930
  = cleanup_expired after_alice 900 1930.
Proof.
  assert (∀ t, float_lt t (float_sub 1900 (float 900)) = true →
               float_lt t (float_sub 1930 (float 900)) = true) as Hmono.
  { intros t. cbn. rewrite !Z.ltb_lt. lia. }
  split; [exact Hmono|].
  exact (later_sweep_subsumes after_alice 900 1900 900 1930 Hmono).
Defined.


(** X9 after one report from 10.0.0.1. *)
Lemma entries_are_whole_reports_witness :
  values_at (run alice_reports) alice_key ≠ absent ∧
  ∃ data address now c,
    Datagram data address now ∈ alice_reports ∧
    protocol_version data = 1 ∧ charging_value data = Some c ∧
    alice_key = labels address.1 (host_id data) ∧
    values_at (run alice_reports) alice_key
    = (Some (float (soc_value data)), Some (float c),
       Some (float (temperature_value data)), Some now).
Proof.
  assert (values_at (run alice_reports) alice_key ≠ absent) as Hne
    by (vm_compute; discriminate).
  split; [exact Hne|].
  exact (entries_are_whole_reports alice_reports alice_key Hne).
Defined.

(** X10 after one report from 10.0.0.1. *)
Lemma stored_values_in_wire_range_witness :
  values_at (run alice_reports) alice_key ≠ absent ∧
  ∃ h s c t l,
    alice_key.2 = pretty h ∧ 0 <= h < 65536 ∧
    0 <= s <= 255 ∧ (c = 0 ∨ c = 1) ∧ -128 <= t <= 127 ∧
    values_at (run alice_reports) alice_key
    = (Some (float s), Some (float c), Some (float t), Some l).
Proof.
  assert (values_at (run alice_reports) alice_key ≠ absent) as Hne
    by (vm_compute; discriminate).
  split; [exact Hne|].
  exact (stored_values_in_wire_range alice_reports alice_key Hne).
Defined.

(** X12 for the default collector: 10.0.0.1 reports at second 1000, the
    looping call runs at second 1500, 10.0.0.2 reports at second 1510.
    The entry of 10.0.0.1 is still there, and it is not stale. *)
Lemma collector_entries_not_stale_witness :
  _metrics
    (last_contact
       (metrics
          (start_network default_collector 0
             ([UDP example_payload alice 1000] ++ LoopingCall 1500
                :: ((λ d, UDP d.1.1 d.1.2 d.2)
                      <$> [(other_payload, bob, 1510)])))))
    !! alice_key = Some 1000 ∧
  (float_lt 1000 (float_sub 1500 (float (statistics_timeout default_collector)))
   = false ∨
   ∃ d, d ∈ [(other_payload, bob, 1510)] ∧
        alice_key = labels d.1.2.1 (host_id d.1.1) ∧ 1000 = d.2).
Proof.
  assert (_metrics
    (last_contact
       (metrics
          (start_network default_collector 0
             ([UDP example_payload alice 1000] ++ LoopingCall 1500
                :: ((λ d, UDP d.1.1 d.1.2 d.2)
                      <$> [(other_payload, bob, 1510)])))))
    !! alice_key = Some 1000) as Hk by (vm_compute; reflexivity).
  split; [exact Hk|].
  exact (collector_entries_not_stale default_collector 0
           [UDP example_payload alice 1000] 1500
           [(other_payload, bob, 1510)] alice_key 1000 Hk).
Defined.
